(** * EconoGraph chat interface: the session controller of
      [frontend/src/components/chat-interface.tsx]

    The component [ChatInterface] keeps three React state cells
    ([messages], [input], [isLoading]) and changes them from four handlers:
    the text box's [onChange], [handleKeyPress], [handleSend] and
    [handleSampleQuestion].  [handleSend] is an [async] function: it runs
    up to its [await], and the rest of its body runs when the awaited
    promise settles.

    The embedding follows the code:
    - a JavaScript string is the list of its UTF-16 code units;
    - a state cell is a field of [Session]; the values a handler reads
      through its closure ([input], [isLoading]) are the ones of the render
      the handler was created in, and are passed as a [Closure];
    - a suspended [handleSend] is an entry of [inflight], holding the
      [input] its closure captured;
    - [Date.now()] and [new Date()] are readings of a [Clock] that the
      environment supplies with each event;
    - [try]/[catch]/[finally] is a combinator of a small state and
      exception monad. *)

From Stdlib Require Import List Bool ZArith NArith Lia String Ascii.
From Stdlib Require Import DecimalString DecimalZ.
Import ListNotations.

Local Open Scope Z_scope.

(** ** JavaScript strings *)

Module JsString.

(** A string value: a finite sequence of 16-bit code units. *)
Definition t : Type := list N.

(** A literal of the source whose characters are all ASCII. *)
Definition lit (s : string) : t := map N_of_ascii (list_ascii_of_string s).

Fixpoint eqb (a b : t) : bool :=
  match a, b with
  | [], [] => true
  | x :: a', y :: b' => N.eqb x y && eqb a' b'
  | _, _ => false
  end.

(** The empty string, written with two quote marks in the source. *)
Definition empty : t := [].

(** [ToBoolean] on a string: the empty string is the only falsy one. *)
Definition truthy (s : t) : bool :=
  match s with [] => false | _ :: _ => true end.

(** The code units [String.prototype.trim] strips: ECMAScript's
    [WhiteSpace] (TAB, VT, FF, ZWNBSP and the characters of category Zs)
    and [LineTerminator] (LF, CR, LS, PS). *)
Definition isWhiteSpace (c : N) : bool :=
  (N.eqb c 0x0009 || N.eqb c 0x000B || N.eqb c 0x000C || N.eqb c 0xFEFF
   || N.eqb c 0x0020 || N.eqb c 0x00A0 || N.eqb c 0x1680
   || (N.leb 0x2000 c && N.leb c 0x200A)
   || N.eqb c 0x202F || N.eqb c 0x205F || N.eqb c 0x3000
   || N.eqb c 0x000A || N.eqb c 0x000D || N.eqb c 0x2028
   || N.eqb c 0x2029)%bool.

Fixpoint trimStart (s : t) : t :=
  match s with
  | [] => []
  | c :: s' => if isWhiteSpace c then trimStart s' else s
  end.

Definition trimEnd (s : t) : t := rev (trimStart (rev s)).

Definition trim (s : t) : t := trimEnd (trimStart s).

(** [Number.prototype.toString()] on an integral Number below 1e21 in
    magnitude: the decimal digits, with a leading minus sign when
    negative.  Time values are integers of magnitude at most 8.64e15,
    below 2^53, so [Date.now()] and [Date.now() + 1] are exact integers
    in that range. *)
Definition ofNumber (z : Z) : t := lit (NilZero.string_of_int (Z.to_int z)).

End JsString.

Definition jsstring : Type := JsString.t.

(** ** Data model *)

Inductive Role : Type := user | assistant.

(** [interface Message]; the optional [error?: boolean] is absent ([None])
    unless the object literal gives it. *)
Record Message : Type := mkMessage {
  id : jsstring;
  content : jsstring;
  role : Role;
  timestamp : Z;
  error : option bool
}.

(** The truth value the renderer tests with [message.error ? ... : ...]. *)
Definition isError (m : Message) : bool :=
  match error m with Some b => b | None => false end.

(** The settlement of an awaited promise. *)
Inductive Outcome : Type := Fulfilled | Rejected.

(** The state cells of the component and the suspended calls of
    [handleSend], oldest first. *)
Record Session : Type := mkSession {
  messages : list Message;
  input : jsstring;
  isLoading : bool;
  inflight : list jsstring
}.

(** What a handler sees of the state: the values of the render that
    created it. *)
Record Closure : Type := mkClosure {
  cl_input : jsstring;
  cl_isLoading : bool
}.

Definition render (s : Session) : Closure :=
  {| cl_input := input s; cl_isLoading := isLoading s |}.

(** The readings of the wall clock a handler makes: [Date.now()] for the
    id and [new Date()] for the timestamp, both in milliseconds. *)
Record Clock : Type := mkClock {
  dateNow : Z;
  newDate : Z
}.

(** ** A state and exception monad for the handlers *)

Inductive Exn : Type := Rejection.

Inductive Completion (A : Type) : Type :=
| Normal (a : A)
| Throw (e : Exn).

Arguments Normal {A} a.
Arguments Throw {A} e.

Definition M (A : Type) : Type := Session -> Completion A * Session.

Definition ret {A} (a : A) : M A := fun s => (Normal a, s).

Definition bind {A B} (m : M A) (k : A -> M B) : M B :=
  fun s =>
    match m s with
    | (Normal a, s') => k a s'
    | (Throw e, s') => (Throw e, s')
    end.

Definition throw {A} (e : Exn) : M A := fun s => (Throw e, s).

Notation "m ;; k" := (bind m (fun _ => k))
  (at level 61, right associativity).

(** [try { body } catch (error) { handler } finally { fin }]. *)
Definition try_catch_finally (body : M unit) (handler : Exn -> M unit)
    (fin : M unit) : M unit :=
  fun s =>
    let r := match body s with
             | (Normal a, s') => (Normal a, s')
             | (Throw e, s') => handler e s'
             end in
    match fin (snd r) with
    | (Normal _, s'') => (fst r, s'')
    | (Throw e, s'') => (Throw e, s'')
    end.

(** The state setters.  [setMessages] is always called with an updater
    function, applied to the current list. *)
Definition setMessages (f : list Message -> list Message) : M unit :=
  fun s => (Normal tt,
            {| messages := f (messages s); input := input s;
               isLoading := isLoading s; inflight := inflight s |}).

Definition setInput (v : jsstring) : M unit :=
  fun s => (Normal tt,
            {| messages := messages s; input := v;
               isLoading := isLoading s; inflight := inflight s |}).

Definition setIsLoading (b : bool) : M unit :=
  fun s => (Normal tt,
            {| messages := messages s; input := input s;
               isLoading := b; inflight := inflight s |}).

(** [await p] inside [handleSend]: the call is parked with the [input] of
    its closure, and control returns to the caller. *)
Definition suspend (captured : jsstring) : M unit :=
  fun s => (Normal tt,
            {| messages := messages s; input := input s;
               isLoading := isLoading s;
               inflight := inflight s ++ [captured] |}).

(** Resuming after [await p]: a rejected promise throws at the [await]. *)
Definition awaited (o : Outcome) : M unit :=
  match o with
  | Fulfilled => ret tt
  | Rejected => throw Rejection
  end.

(** ** The component *)

Definition greeting : jsstring :=
  JsString.lit "Hello! I'm EconoGraph, your Federal Reserve Economic Data assistant. I can help you understand economic trends, analyze FRED data, and answer questions about monetary policy. What would you like to explore today?".

(** The initial value of the state cells; [new Date()] of the first
    render is [t0]. *)
Definition initial (t0 : Z) : Session :=
  {| messages := [ {| id := JsString.lit "1"; content := greeting;
                      role := assistant; timestamp := t0;
                      error := None |} ];
     input := JsString.empty;
     isLoading := false;
     inflight := [] |}.

Definition LF : jsstring := [0x000A%N].
Definition QUOTE : jsstring := [0x0022%N].
Definition BULLET : jsstring := [0x2022%N].

(** The template literal of the simulated reply, [${input}] being the
    [input] of the closure. *)
Definition replyTemplate (input : jsstring) : jsstring :=
  JsString.lit "I received your question: " ++ QUOTE ++ input ++ QUOTE
  ++ JsString.lit ". This is a demo response. In the full version, I would analyze FRED economic data and provide insights about your query using my knowledge of Federal Reserve data, economic indicators, and monetary policy."
  ++ LF ++ LF
  ++ JsString.lit "Here are some key points I would typically cover:" ++ LF
  ++ BULLET ++ JsString.lit " Current economic indicators and trends" ++ LF
  ++ BULLET ++ JsString.lit " Historical data context and comparisons" ++ LF
  ++ BULLET ++ JsString.lit " Federal Reserve policy implications" ++ LF
  ++ BULLET ++ JsString.lit " Data visualization and charts" ++ LF ++ LF
  ++ JsString.lit "Would you like me to elaborate on any specific aspect?".

Definition errorText : jsstring :=
  JsString.lit "I'm sorry, I encountered an error processing your request. Please try again or check if the backend service is running.".

Definition userMessage (cl : Closure) (clk : Clock) : Message :=
  {| id := JsString.ofNumber (dateNow clk);
     content := cl_input cl;
     role := user;
     timestamp := newDate clk;
     error := None |}.

Definition assistantMessage (captured : jsstring) (clk : Clock) : Message :=
  {| id := JsString.ofNumber (dateNow clk + 1);
     content := replyTemplate captured;
     role := assistant;
     timestamp := newDate clk;
     error := None |}.

Definition errorMessage (clk : Clock) : Message :=
  {| id := JsString.ofNumber (dateNow clk + 1);
     content := errorText;
     role := assistant;
     timestamp := newDate clk;
     error := Some true |}.

(** [handleSend], from its entry to its [await]. *)
Definition handleSend (cl : Closure) (clk : Clock) : M unit :=
  if negb (JsString.truthy (JsString.trim (cl_input cl))) || cl_isLoading cl
  then ret tt
  else
    setMessages (fun prev => prev ++ [userMessage cl clk]) ;;
    setInput JsString.empty ;;
    setIsLoading true ;;
    suspend (cl_input cl).

(** [handleSend], from its [await] to its end; [captured] is the [input]
    of the closure and [o] the settlement of the awaited promise. *)
Definition handleSend_resume (captured : jsstring) (o : Outcome)
    (clk : Clock) : M unit :=
  try_catch_finally
    (awaited o ;;
     setMessages (fun prev => prev ++ [assistantMessage captured clk]))
    (fun _ => setMessages (fun prev => prev ++ [errorMessage clk]))
    (setIsLoading false).

Definition handleSampleQuestion (question : jsstring) : M unit :=
  setInput question.

(** [handleKeyPress], on an event with the given [key] and [shiftKey]. *)
Definition handleKeyPress (cl : Closure) (key : jsstring) (shiftKey : bool)
    (clk : Clock) : M unit :=
  if JsString.eqb key (JsString.lit "Enter") && negb shiftKey
  then handleSend cl clk
  else ret tt.

Definition sampleQuestions : list jsstring :=
  [ JsString.lit "What's the current unemployment rate trend?";
    JsString.lit "Explain inflation and interest rates relationship";
    JsString.lit "Show me recent GDP growth data" ].

(** The promise that stands for the remote call,
    [new Promise(resolve => setTimeout(resolve, 2000))]: its executor is
    handed the two settling functions and returns the timers it set, each
    a delay and the function to call. *)
Definition simulatedExecutor (resolve reject : Outcome)
  : list (Z * Outcome) :=
  [ (2000, resolve) ].

(** A promise settles by the first settling function called. *)
Definition settlement (timers : list (Z * Outcome)) : option Outcome :=
  match timers with
  | [] => None
  | (_, o) :: _ => Some o
  end.

Definition simulatedCall : option Outcome :=
  settlement (simulatedExecutor Fulfilled Rejected).

(** ** Events *)

(** The [disabled] attributes of the three kinds of control. *)
Definition textarea_disabled (cl : Closure) : bool := cl_isLoading cl.

Definition sendButton_disabled (cl : Closure) : bool :=
  negb (JsString.truthy (JsString.trim (cl_input cl))) || cl_isLoading cl.

Definition sampleButton_disabled (cl : Closure) : bool := cl_isLoading cl.

(** What can happen to a mounted component: the user acts on a control,
    or the promise of the oldest suspended call settles. *)
Inductive Event : Type :=
| Change (value : jsstring)
| KeyPress (key : jsstring) (shiftKey : bool) (clk : Clock)
| ClickSend (clk : Clock)
| ClickSample (index : nat)
| Settle (o : Outcome) (clk : Clock).

(** A disabled control dispatches nothing; React renders between events,
    so a handler's closure is the render of the current state. *)
Definition dispatch (e : Event) : M unit :=
  fun s =>
    let cl := render s in
    match e with
    | Change value =>
        if textarea_disabled cl then ret tt s else setInput value s
    | KeyPress key shiftKey clk =>
        if textarea_disabled cl then ret tt s
        else handleKeyPress cl key shiftKey clk s
    | ClickSend clk =>
        if sendButton_disabled cl then ret tt s else handleSend cl clk s
    | ClickSample index =>
        if sampleButton_disabled cl then ret tt s
        else
          match nth_error sampleQuestions index with
          | Some question => handleSampleQuestion question s
          | None => ret tt s
          end
    | Settle o clk =>
        match inflight s with
        | [] => ret tt s
        | captured :: rest =>
            handleSend_resume captured o clk
              {| messages := messages s; input := input s;
                 isLoading := isLoading s; inflight := rest |}
        end
    end.

Definition step (s : Session) (e : Event) : Session := snd (dispatch e s).

Definition run (s : Session) (trace : list Event) : Session :=
  fold_left step trace s.

(** [simulated e]: the event can happen to the component as it is
    written, where every settlement is the one of [simulatedCall]. *)
Definition Outcome_eqb (a b : Outcome) : bool :=
  match a, b with
  | Fulfilled, Fulfilled | Rejected, Rejected => true
  | _, _ => false
  end.

Definition simulated (e : Event) : bool :=
  match e with
  | Settle o _ =>
      match simulatedCall with
      | Some o' => Outcome_eqb o o'
      | None => false
      end
  | _ => true
  end.

(** The operations of the controller, as the controls offer them:
    [submit] is what both the send button and the Enter key call,
    [setPendingInput] is an edit of the text box and
    [selectSampleQuestion] a click on the sample button of that index. *)
Definition submit (clk : Clock) : M unit :=
  fun s => handleSend (render s) clk s.

Definition setPendingInput (text : jsstring) : M unit :=
  dispatch (Change text).

Definition selectSampleQuestion (index : nat) : M unit :=
  dispatch (ClickSample index).

(** The two states of the controller. *)
Definition Idle (s : Session) : Prop :=
  isLoading s = false /\ inflight s = [].

Definition Awaiting (s : Session) : Prop :=
  isLoading s = true /\ exists captured, inflight s = [captured].

(** The state [handleSend] leaves when it accepts. *)
Definition accepted (clk : Clock) (s : Session) : Session :=
  {| messages := messages s ++ [userMessage (render s) clk];
     input := JsString.empty;
     isLoading := true;
     inflight := inflight s ++ [input s] |}.

(** The controller is in one of the two. *)
Definition consistent (s : Session) : Prop := Idle s \/ Awaiting s.

(** The events that come from the user's hand, as opposed to the
    settling of a promise. *)
Definition user_event (e : Event) : bool :=
  match e with
  | Settle _ _ => false
  | _ => true
  end.

(** [with_input v s]: the state [s] with [v] in the [input] cell. *)
Definition with_input (v : jsstring) (s : Session) : Session :=
  {| messages := messages s; input := v;
     isLoading := isLoading s; inflight := inflight s |}.

(** ** The log as exchanges

    After the greeting the log is read as a sequence of exchanges, a
    question and its reply, followed by the question still waiting for its
    reply when a call is outstanding. *)

Definition flatten (xs : list (Message * Message)) : list Message :=
  flat_map (fun x => [fst x; snd x]) xs.

(** A message [handleSend] may have made of an accepted [input]. *)
Definition question_ok (q : Message) : Prop :=
  role q = user /\ JsString.trim (content q) <> [] /\ error q = None.

(** [r] is what [handleSend] appends after [q]: the reply made from the
    closure's [input], or the error notice, which takes a rejected
    promise ([sim = false]). *)
Definition exchange_ok (sim : bool) (x : Message * Message) : Prop :=
  question_ok (fst x) /\ role (snd x) = assistant
  /\ ((content (snd x) = replyTemplate (content (fst x))
       /\ error (snd x) = None)
      \/ (sim = false /\ content (snd x) = errorText
          /\ error (snd x) = Some true)).

Definition log_shape (sim : bool) (s : Session) : Prop :=
  exists seed xs pend,
    messages s = seed :: flatten xs ++ pend
    /\ role seed = assistant /\ content seed = greeting
    /\ error seed = None
    /\ Forall (exchange_ok sim) xs
    /\ ((isLoading s = false /\ inflight s = [] /\ pend = [])
        \/ (isLoading s = true /\ input s = JsString.empty
            /\ exists q, pend = [q] /\ question_ok q
                         /\ inflight s = [content q])).

(** The roles of a log of [n] messages that starts with the assistant
    and alternates. *)
Definition alternating (n : nat) : list Role :=
  map (fun i => if Nat.even i then assistant else user) (seq 0 n).

(** No user message is blank. *)
Definition asks_something (m : Message) : bool :=
  match role m with
  | user => JsString.truthy (JsString.trim (content m))
  | assistant => true
  end.

(** ** Clock readings of a history *)



(** ** What is rendered

    The JSX the component returns, as far as it depends on the state:
    one row per message, the row of the loading indicator, and the
    attributes of the three kinds of control.  Class names are the
    strings of the source; the time of a message is left as the [Date]
    that [toLocaleTimeString] formats. *)

Inductive Icon : Type := AlertCircle | Bot | User | Loader2 | Send.

Record AvatarView : Type := mkAvatarView {
  fallbackClass : string;
  icon : Icon;
  iconClass : string
}.

Record MessageView : Type := mkMessageView {
  key : jsstring;
  rowClass : string;
  assistantAvatar : option AvatarView;
  cardClass : string;
  text : jsstring;
  timeClass : string;
  time : Z;
  userAvatar : option AvatarView
}.

Definition isUser (m : Message) : bool :=
  match role m with user => true | assistant => false end.

Definition isAssistant (m : Message) : bool :=
  match role m with assistant => true | user => false end.

Definition messageView (m : Message) : MessageView :=
  {| key := id m;
     rowClass :=
       ("flex items-start space-x-3 "
        ++ (if isUser m then "justify-end" else "justify-start"))%string;
     assistantAvatar :=
       if isAssistant m
       then Some {| fallbackClass :=
                      if isError m then "bg-red-100" else "bg-slate-100";
                    icon := if isError m then AlertCircle else Bot;
                    iconClass :=
                      if isError m then "w-4 h-4 text-red-600"
                      else "w-4 h-4 text-slate-600" |}
       else None;
     cardClass :=
       ("max-w-xs sm:max-w-md lg:max-w-lg xl:max-w-xl p-3 "
        ++ (if isUser m then "bg-slate-900 text-white border-slate-800"
            else if isError m then "bg-red-50 text-red-900 border-red-200"
            else "bg-white border-slate-200"))%string;
     text := content m;
     timeClass :=
       ("text-xs mt-2 "
        ++ (if isUser m then "text-slate-300" else "text-slate-500"))%string;
     time := timestamp m;
     userAvatar :=
       if isUser m
       then Some {| fallbackClass := "bg-slate-900";
                    icon := User;
                    iconClass := "w-4 h-4 text-white" |}
       else None |}.

Record View : Type := mkView {
  rows : list MessageView;
  loadingRow : bool;
  textareaValue : jsstring;
  textareaDisabled : bool;
  sendDisabled : bool;
  sendIcon : Icon;
  samplesDisabled : bool
}.

Definition view (s : Session) : View :=
  {| rows := map messageView (messages s);
     loadingRow := isLoading s;
     textareaValue := input s;
     textareaDisabled := textarea_disabled (render s);
     sendDisabled := sendButton_disabled (render s);
     sendIcon := if isLoading s then Loader2 else Send;
     samplesDisabled := sampleButton_disabled (render s) |}.

(** The class of the card of an error notice. *)
Definition errorCardClass : string :=
  "max-w-xs sm:max-w-md lg:max-w-lg xl:max-w-xl p-3 bg-red-50 text-red-900 border-red-200".

(** ** A session to run

    The history of the scenarios of the specification: the user types a
    question and sends it, the reply arrives two seconds later, and the
    user sends a sample question. *)
Module Scenario.

Definition question : jsstring := JsString.lit "What is GDP?".

Definition mounted_at : Z := 1700000000000.

Definition at_ms (ms : Z) : Clock :=
  {| dateNow := mounted_at + ms; newDate := mounted_at + ms |}.

(** The question typed, not yet sent. *)
Definition typed : Session := run (initial mounted_at) [Change question].

(** The question sent five seconds after mounting: a call is
    outstanding. *)
Definition sent : Session := step typed (ClickSend (at_ms 5000)).

(** A session whose text box holds a space, a tab and a line feed. *)
Definition blank : Session :=
  run (initial mounted_at) [Change [0x0020%N; 0x0009%N; 0x000A%N]].

(** The reply arrives when the timer of 2000 ms expires; a millisecond
    later a sample question is picked and sent. *)
Definition clash : list Event :=
  [ Change question;
    ClickSend (at_ms 5000);
    Settle Fulfilled (at_ms 7000);
    ClickSample 2;
    ClickSend (at_ms 7001) ].

End Scenario.

(** ** Trimming *)

Module JsStringFacts.
Import JsString.

Lemma eqb_eq (a b : t) : eqb a b = true <-> a = b.
Proof.
  revert b; induction a as [|x a IH]; intros [|y b]; simpl;
    try (split; (reflexivity || discriminate)).
  rewrite andb_true_iff, N.eqb_eq, IH.
  split; [intros [-> ->]; reflexivity | intros [= -> ->]; auto].
Qed.

Lemma trimStart_blank (s : t) :
  forallb isWhiteSpace s = true -> trimStart s = [].
Proof.
  induction s as [|c s IH]; simpl; [reflexivity|].
  rewrite andb_true_iff; intros [-> Hs]; auto.
Qed.

Lemma trimStart_nil_blank (s : t) :
  trimStart s = [] -> forallb isWhiteSpace s = true.
Proof.
  induction s as [|c s IH]; simpl; [reflexivity|].
  destruct (isWhiteSpace c); [auto | discriminate].
Qed.

(** What [trimStart] leaves is empty or starts with a character that
    stays. *)
Lemma trimStart_head (s : t) :
  match trimStart s with
  | [] => True
  | c :: _ => isWhiteSpace c = false
  end.
Proof.
  induction s as [|c s IH]; simpl; [exact I|].
  destruct (isWhiteSpace c) eqn:E; [exact IH | exact E].
Qed.

Lemma forallb_rev (f : N -> bool) (s : t) :
  forallb f (rev s) = forallb f s.
Proof.
  induction s as [|c s IH]; simpl; [reflexivity|].
  rewrite forallb_app, IH; simpl.
  rewrite andb_true_r; apply andb_comm.
Qed.

Lemma trimEnd_nil_blank (s : t) :
  trimEnd s = [] -> forallb isWhiteSpace s = true.
Proof.
  unfold trimEnd; intros H.
  rewrite <- forallb_rev.
  apply trimStart_nil_blank.
  rewrite <- (rev_involutive (trimStart (rev s))), H; reflexivity.
Qed.

(** The guard [!input.trim()] holds exactly of the strings that are
    empty or made of white space only. *)
Lemma trim_nil_iff (s : t) :
  trim s = [] <-> forallb isWhiteSpace s = true.
Proof.
  unfold trim; split.
  - intros H; apply trimEnd_nil_blank in H.
    apply trimStart_nil_blank.
    pose proof (trimStart_head s) as Hh.
    destruct (trimStart s) as [|c u]; [reflexivity|].
    simpl in H; rewrite Hh in H; discriminate.
  - intros H; rewrite (trimStart_blank s H); reflexivity.
Qed.

Lemma truthy_trim_true (s : t) :
  truthy (trim s) = true <-> trim s <> [].
Proof.
  destruct (trim s); simpl; split;
    (congruence || discriminate || reflexivity).
Qed.

End JsStringFacts.

(** ** The handlers, step by step *)

Lemma submit_accepts (clk : Clock) (s : Session) :
  JsString.trim (input s) <> [] -> isLoading s = false ->
  submit clk s = (Normal tt, accepted clk s).
Proof.
  intros Ht Hl.
  apply JsStringFacts.truthy_trim_true in Ht.
  unfold submit, handleSend; simpl.
  rewrite Ht, Hl; reflexivity.
Qed.

Lemma submit_rejects (clk : Clock) (s : Session) :
  JsString.trim (input s) = [] \/ isLoading s = true ->
  submit clk s = (Normal tt, s).
Proof.
  intros H; unfold submit, handleSend; simpl.
  destruct H as [-> | ->]; simpl; [reflexivity|].
  rewrite orb_true_r; reflexivity.
Qed.

(** The send button is disabled exactly when [handleSend] would return
    at once, so a click on it is [submit] in every state. *)
Lemma ClickSend_submit (clk : Clock) (s : Session) :
  dispatch (ClickSend clk) s = submit clk s.
Proof.
  unfold dispatch, submit, sendButton_disabled, handleSend.
  destruct (negb _ || _)%bool; reflexivity.
Qed.

(** So is Enter without Shift in the text box. *)
Lemma Enter_submit (clk : Clock) (s : Session) :
  dispatch (KeyPress (JsString.lit "Enter") false clk) s = submit clk s.
Proof.
  unfold dispatch, submit, textarea_disabled, handleKeyPress.
  replace (JsString.eqb _ _ && negb false)%bool with true
    by (symmetry; vm_compute; reflexivity).
  destruct (cl_isLoading (render s)) eqn:E; [|reflexivity].
  unfold handleSend; rewrite E, orb_true_r; reflexivity.
Qed.

Lemma resume_Fulfilled (captured : jsstring) (clk : Clock) (s : Session) :
  handleSend_resume captured Fulfilled clk s =
  (Normal tt,
   {| messages := messages s ++ [assistantMessage captured clk];
      input := input s; isLoading := false; inflight := inflight s |}).
Proof. reflexivity. Qed.

Lemma resume_Rejected (captured : jsstring) (clk : Clock) (s : Session) :
  handleSend_resume captured Rejected clk s =
  (Normal tt,
   {| messages := messages s ++ [errorMessage clk];
      input := input s; isLoading := false; inflight := inflight s |}).
Proof. reflexivity. Qed.

(** ** Submission *)

(** C1.  In an idle session whose [input] is [t], with [t.trim()] not
    empty, [submit] appends one message at the end of [messages], of role
    [user] and content [t] (untrimmed), sets [input] to the empty string
    and [isLoading] to true; the call is then suspended on its [await]
    with [t] in its closure. *)
Theorem submit_idle_appends_user_message
    (t : jsstring) (clk : Clock) (s : Session)
    (Hinput : input s = t)
    (Htrim : JsString.trim t <> [])
    (Hidle : isLoading s = false) :
  exists m,
    submit clk s =
      (Normal tt,
       {| messages := messages s ++ [m]; input := JsString.empty;
          isLoading := true; inflight := inflight s ++ [t] |})
    /\ role m = user /\ content m = t /\ error m = None
    /\ id m = JsString.ofNumber (dateNow clk)
    /\ timestamp m = newDate clk
    /\ dispatch (ClickSend clk) s = submit clk s
    /\ dispatch (KeyPress (JsString.lit "Enter") false clk) s = submit clk s.
Proof.
  subst t.
  exists (userMessage (render s) clk).
  split; [exact (submit_accepts clk s Htrim Hidle)|].
  repeat split; auto using ClickSend_submit, Enter_submit.
Qed.

(** C2.  While [isLoading] is true, [submit] changes nothing: [messages]
    and [input] are as before and no further call is suspended.  The send
    button and the Enter key do the same. *)
Theorem submit_while_awaiting_is_noop (clk : Clock) (s : Session)
    (Hawaiting : isLoading s = true) :
  submit clk s = (Normal tt, s)
  /\ dispatch (ClickSend clk) s = (Normal tt, s)
  /\ dispatch (KeyPress (JsString.lit "Enter") false clk) s = (Normal tt, s)
  /\ List.length (messages (step s (ClickSend clk))) = List.length (messages s)
  /\ input (step s (ClickSend clk)) = input s
  /\ inflight (step s (ClickSend clk)) = inflight s.
Proof.
  assert (H : submit clk s = (Normal tt, s))
    by (apply submit_rejects; right; exact Hawaiting).
  unfold step.
  rewrite ClickSend_submit, Enter_submit, H; simpl; repeat split.
Qed.

(** C5.  When [input] is empty or has white space only, [submit] changes
    nothing, whatever the state: no message, error notice included, is
    appended, [isLoading] and [input] keep their values, and nothing is
    thrown. *)
Theorem submit_blank_is_noop (clk : Clock) (s : Session)
    (Hblank : forallb JsString.isWhiteSpace (input s) = true) :
  submit clk s = (Normal tt, s)
  /\ dispatch (ClickSend clk) s = (Normal tt, s)
  /\ dispatch (KeyPress (JsString.lit "Enter") false clk) s = (Normal tt, s)
  /\ messages (step s (ClickSend clk)) = messages s
  /\ isLoading (step s (ClickSend clk)) = isLoading s
  /\ input (step s (ClickSend clk)) = input s.
Proof.
  assert (H : submit clk s = (Normal tt, s)).
  { apply submit_rejects; left.
    apply JsStringFacts.trim_nil_iff; exact Hblank. }
  unfold step.
  rewrite ClickSend_submit, Enter_submit, H; simpl; repeat split.
Qed.

(** ** Resolution of the remote call *)

(** C3.  When the promise of a suspended call is fulfilled, the call
    appends one message, of role [assistant] and without the error mark,
    and sets [isLoading] to false; nothing else changes and nothing is
    thrown. *)
Theorem resolve_appends_assistant_reply
    (captured : jsstring) (rest : list jsstring) (clk : Clock) (s : Session)
    (Hcall : inflight s = captured :: rest) :
  exists m,
    dispatch (Settle Fulfilled clk) s =
      (Normal tt,
       {| messages := messages s ++ [m]; input := input s;
          isLoading := false; inflight := rest |})
    /\ role m = assistant /\ isError m = false
    /\ content m = replyTemplate captured
    /\ List.length (messages (step s (Settle Fulfilled clk)))
       = S (List.length (messages s))
    /\ isLoading (step s (Settle Fulfilled clk)) = false.
Proof.
  exists (assistantMessage captured clk).
  unfold step, dispatch; rewrite Hcall, resume_Fulfilled; simpl.
  repeat split.
  rewrite length_app; simpl; lia.
Qed.

(** C4.  When the promise of a suspended call is rejected, the [catch]
    block appends one message, of role [assistant], marked as an error,
    whose content is [errorText] whatever was submitted; [finally] sets
    [isLoading] to false.  The handler completes normally, and the session
    accepts the next submission: after an edit of the text box to a [t]
    with [t.trim()] not empty, [submit] appends the user message. *)
Theorem fail_appends_error_notice
    (captured : jsstring) (rest : list jsstring) (clk clk' : Clock)
    (t : jsstring) (s : Session)
    (Hcall : inflight s = captured :: rest)
    (Htrim : JsString.trim t <> []) :
  exists m s',
    dispatch (Settle Rejected clk) s = (Normal tt, s')
    /\ s' = {| messages := messages s ++ [m]; input := input s;
               isLoading := false; inflight := rest |}
    /\ role m = assistant /\ isError m = true /\ content m = errorText
    /\ (forall captured' clk'' s0,
          content (errorMessage clk'') = errorText
          /\ snd (handleSend_resume captured' Rejected clk'' s0)
             = snd (handleSend_resume captured Rejected clk'' s0))
    /\ List.length (messages s') = S (List.length (messages s))
    /\ exists m',
         run s' [Change t; ClickSend clk'] =
           {| messages := messages s' ++ [m']; input := JsString.empty;
              isLoading := true; inflight := rest ++ [t] |}
         /\ role m' = user /\ content m' = t.
Proof.
  exists (errorMessage clk).
  eexists; split.
  - unfold dispatch; rewrite Hcall, resume_Rejected; reflexivity.
  - repeat split; simpl.
    + rewrite length_app; simpl; lia.
    + exists (userMessage {| cl_input := t; cl_isLoading := false |} clk').
      repeat split.
      unfold run, step; simpl.
      unfold sendButton_disabled, handleSend; simpl.
      apply JsStringFacts.truthy_trim_true in Htrim; rewrite Htrim.
      reflexivity.
Qed.

(** ** The message log only grows *)

Lemma handleSend_appends (cl : Closure) (clk : Clock) (s : Session) :
  exists suffix, messages (snd (handleSend cl clk s)) = messages s ++ suffix.
Proof.
  unfold handleSend.
  destruct (negb _ || _)%bool.
  - exists []; simpl; symmetry; apply app_nil_r.
  - exists [userMessage cl clk]; reflexivity.
Qed.

Lemma handleSend_resume_appends
    (captured : jsstring) (o : Outcome) (clk : Clock) (s : Session) :
  exists suffix,
    messages (snd (handleSend_resume captured o clk s)) = messages s ++ suffix.
Proof.
  destruct o.
  - exists [assistantMessage captured clk]; reflexivity.
  - exists [errorMessage clk]; reflexivity.
Qed.

Lemma step_appends (s : Session) (e : Event) :
  exists suffix, messages (step s e) = messages s ++ suffix.
Proof.
  assert (Hsame : exists suffix, messages s = messages s ++ suffix)
    by (exists []; symmetry; apply app_nil_r).
  unfold step, dispatch;
    destruct e as [value | key shiftKey clk | clk | index | o clk].
  - destruct (textarea_disabled _); exact Hsame.
  - destruct (textarea_disabled _); [exact Hsame|].
    unfold handleKeyPress; destruct (_ && _)%bool; [|exact Hsame].
    apply handleSend_appends.
  - destruct (sendButton_disabled _); [exact Hsame|].
    apply handleSend_appends.
  - destruct (sampleButton_disabled _); [exact Hsame|].
    destruct (nth_error _ _); exact Hsame.
  - destruct (inflight s) as [|captured rest]; [exact Hsame|].
    apply (handleSend_resume_appends captured o clk
             {| messages := messages s; input := input s;
                isLoading := isLoading s; inflight := rest |}).
Qed.

Lemma run_app (s : Session) (t1 t2 : list Event) :
  run s (t1 ++ t2) = run (run s t1) t2.
Proof. apply fold_left_app. Qed.

Lemma run_appends (trace : list Event) :
  forall s, exists suffix, messages (run s trace) = messages s ++ suffix.
Proof.
  induction trace as [|e trace IH]; intros s.
  - exists []; simpl; symmetry; apply app_nil_r.
  - destruct (step_appends s e) as [suf1 H1].
    destruct (IH (step s e)) as [suf2 H2].
    exists (suf1 ++ suf2).
    simpl; fold (run (step s e) trace).
    rewrite H2, H1, app_assoc; reflexivity.
Qed.

(** C6.  [messages] is append-only.  Each operation of the controller
    (an edit of the text box, [submit], a sample question, the two ways a
    suspended call ends) and each event leaves the former list as a prefix
    of the new one.  Along any history, what later events add comes after
    everything the earlier ones produced, and the message at a position
    stays, with all its fields, the one that was first put there. *)
Theorem messages_append_only (s : Session) :
  (forall text, messages (snd (setPendingInput text s)) = messages s)
  /\ (forall index, messages (snd (selectSampleQuestion index s)) = messages s)
  /\ (forall clk,
        exists suffix, messages (snd (submit clk s)) = messages s ++ suffix)
  /\ (forall captured o clk,
        exists suffix,
          messages (snd (handleSend_resume captured o clk s))
          = messages s ++ suffix)
  /\ (forall e, exists suffix, messages (step s e) = messages s ++ suffix)
  /\ (forall earlier later,
        exists suffix,
          messages (run s (earlier ++ later))
          = messages (run s earlier) ++ suffix)
  /\ (forall trace i m,
        nth_error (messages s) i = Some m ->
        nth_error (messages (run s trace)) i = Some m).
Proof.
  repeat split.
  - intros text; unfold setPendingInput, dispatch.
    destruct (textarea_disabled _); reflexivity.
  - intros index; unfold selectSampleQuestion, dispatch.
    destruct (sampleButton_disabled _); [reflexivity|].
    destruct (nth_error _ _); reflexivity.
  - intros clk; apply handleSend_appends.
  - intros captured o clk; apply handleSend_resume_appends.
  - apply step_appends.
  - intros earlier later; rewrite run_app; apply run_appends.
  - intros trace i m Hi.
    destruct (run_appends trace s) as [suffix ->].
    rewrite nth_error_app1; [exact Hi|].
    apply nth_error_Some; congruence.
Qed.

(** ** The fresh session *)

(** C7.  The initial state has one message, the greeting, of role
    [assistant], and [isLoading] false; after any history of events
    [messages] is not empty. *)
Theorem fresh_session_has_greeting (t0 : Z) :
  List.length (messages (initial t0)) = 1%nat
  /\ (exists seed,
        messages (initial t0) = [seed]
        /\ role seed = assistant /\ content seed = greeting
        /\ isError seed = false)
  /\ isLoading (initial t0) = false
  /\ input (initial t0) = JsString.empty
  /\ (forall trace, messages (run (initial t0) trace) <> [])
  /\ (forall trace,
        (1 <= List.length (messages (run (initial t0) trace)))%nat).
Proof.
  repeat split.
  - eexists; repeat split.
  - intros trace.
    destruct (run_appends trace (initial t0)) as [suffix ->].
    discriminate.
  - intros trace.
    destruct (run_appends trace (initial t0)) as [suffix ->].
    simpl; lia.
Qed.

(** ** Idle and awaiting *)

(** While a call is outstanding every control is disabled or guarded:
    the user's events change nothing. *)
Lemma awaiting_user_event_noop (s : Session) (e : Event) :
  isLoading s = true -> user_event e = true -> dispatch e s = (Normal tt, s).
Proof.
  intros Hl He.
  destruct e as [value | key shiftKey clk | clk | index | o clk];
    try discriminate He;
    unfold dispatch, textarea_disabled, sendButton_disabled,
      sampleButton_disabled; simpl; rewrite Hl;
    rewrite ?orb_true_r; reflexivity.
Qed.

Lemma awaiting_user_events_noop (mid : list Event) (s : Session) :
  isLoading s = true -> forallb user_event mid = true -> run s mid = s.
Proof.
  intros Hl; induction mid as [|e mid IH]; simpl; [reflexivity|].
  rewrite andb_true_iff; intros [He Hmid].
  change (run (step s e) mid = s).
  unfold step; rewrite (awaiting_user_event_noop s e Hl He); simpl.
  exact (IH Hmid).
Qed.

Lemma handleSend_consistent (clk : Clock) (s : Session) :
  Idle s -> consistent (snd (handleSend (render s) clk s)).
Proof.
  intros [Hl Hi]; unfold handleSend.
  destruct (negb _ || _)%bool; simpl.
  - left; split; assumption.
  - right; split; [reflexivity|].
    exists (input s); rewrite Hi; reflexivity.
Qed.

Lemma step_consistent (s : Session) (e : Event) :
  consistent s -> consistent (step s e).
Proof.
  intros [[Hl Hi] | [Hl [captured Hi]]].
  - unfold step, dispatch, textarea_disabled, sendButton_disabled,
      sampleButton_disabled.
    destruct e as [value | key shiftKey clk | clk | index | o clk]; simpl.
    + rewrite Hl; left; split; assumption.
    + rewrite Hl; unfold handleKeyPress.
      destruct (_ && _)%bool.
      * apply handleSend_consistent; split; assumption.
      * left; split; assumption.
    + destruct (negb _ || _)%bool eqn:E.
      * left; split; assumption.
      * apply handleSend_consistent; split; assumption.
    + rewrite Hl.
      destruct (nth_error _ _); left; split; assumption.
    + rewrite Hi; left; split; assumption.
  - destruct (user_event e) eqn:He.
    + unfold step; rewrite (awaiting_user_event_noop s e Hl He); simpl.
      right; split; [assumption | exists captured; assumption].
    + destruct e as [value | key shiftKey clk | clk | index | o clk];
        try discriminate He.
      unfold step, dispatch; rewrite Hi.
      destruct o; left; split; reflexivity.
Qed.

Lemma run_consistent (trace : list Event) :
  forall s, consistent s -> consistent (run s trace).
Proof.
  induction trace as [|e trace IH]; intros s Hs; [exact Hs|].
  simpl; apply IH, step_consistent, Hs.
Qed.

Lemma initial_consistent (t0 : Z) : consistent (initial t0).
Proof. left; split; reflexivity. Qed.

(** At most one call is outstanding, and [isLoading] tells whether one
    is. *)
Lemma reachable_consistent (t0 : Z) (trace : list Event) :
  consistent (run (initial t0) trace).
Proof. apply run_consistent, initial_consistent. Qed.

(** ** Editing the text *)

(** C9, as the code has it.  An edit of the text box to [t] replaces
    [input] by [t] and changes nothing else when [isLoading] is false;
    when [isLoading] is true the text box is disabled and the state stays
    as it is, [input] included.  A sample question behaves the same way
    with the text of its button.  Neither throws. *)
Theorem setPendingInput_replaces_input_unless_awaiting
    (t : jsstring) (index : nat) (s : Session) :
  setPendingInput t s
    = (Normal tt, if isLoading s then s else with_input t s)
  /\ selectSampleQuestion index s
     = (Normal tt,
        match nth_error sampleQuestions index with
        | Some question => if isLoading s then s else with_input question s
        | None => s
        end)
  /\ messages (with_input t s) = messages s
  /\ isLoading (with_input t s) = isLoading s
  /\ inflight (with_input t s) = inflight s
  /\ input (with_input t s) = t.
Proof.
  unfold setPendingInput, selectSampleQuestion, dispatch,
    textarea_disabled, sampleButton_disabled; simpl.
  destruct (isLoading s); repeat split;
    destruct (nth_error sampleQuestions index); reflexivity.
Qed.

(** C9 as the specification words it fails while a call is outstanding:
    in the session that has just sent a question, an edit to another text
    leaves [input] empty. *)
Lemma setPendingInput_while_awaiting_is_refused :
  isLoading Scenario.sent = true
  /\ input (snd (setPendingInput (JsString.lit "abc") Scenario.sent))
     = JsString.empty
  /\ ~ (forall (t : jsstring) (s : Session),
          input (snd (setPendingInput t s)) = t).
Proof.
  split; [reflexivity|].
  split; [reflexivity|].
  intros H.
  specialize (H (JsString.lit "abc") Scenario.sent).
  vm_compute in H; discriminate H.
Qed.

(** ** The simulated remote call *)

Lemma simulatedCall_fulfils : simulatedCall = Some Fulfilled.
Proof. reflexivity. Qed.

Lemma simulated_Settle (o : Outcome) (clk : Clock) :
  simulated (Settle o clk) = true -> o = Fulfilled.
Proof. destruct o; [reflexivity | discriminate]. Qed.

Lemma user_events_simulated (mid : list Event) :
  forallb user_event mid = true -> forallb simulated mid = true.
Proof.
  induction mid as [|e mid IH]; [reflexivity|].
  cbn [forallb]; rewrite !andb_true_iff; intros [He Hmid].
  split; [|exact (IH Hmid)].
  destruct e; (reflexivity || discriminate He).
Qed.

Lemma step_simulated_suffix (s : Session) (e : Event) :
  simulated e = true ->
  exists suffix,
    messages (step s e) = messages s ++ suffix
    /\ Forall (fun m => isError m = false) suffix.
Proof.
  intros He.
  assert (Hsame : exists suffix,
             messages s = messages s ++ suffix
             /\ Forall (fun m => isError m = false) suffix)
    by (exists []; split; [symmetry; apply app_nil_r | constructor]).
  assert (Hsend : forall cl clk,
             exists suffix,
               messages (snd (handleSend cl clk s)) = messages s ++ suffix
               /\ Forall (fun m => isError m = false) suffix).
  { intros cl clk; unfold handleSend.
    destruct (negb _ || _)%bool; [exact Hsame|].
    exists [userMessage cl clk]; split; [reflexivity|].
    repeat constructor. }
  unfold step, dispatch;
    destruct e as [value | key shiftKey clk | clk | index | o clk].
  - destruct (textarea_disabled _); exact Hsame.
  - destruct (textarea_disabled _); [exact Hsame|].
    unfold handleKeyPress; destruct (_ && _)%bool; [|exact Hsame].
    apply Hsend.
  - destruct (sendButton_disabled _); [exact Hsame|].
    apply Hsend.
  - destruct (sampleButton_disabled _); [exact Hsame|].
    destruct (nth_error _ _); exact Hsame.
  - apply simulated_Settle in He; subst o.
    destruct (inflight s) as [|captured rest]; [exact Hsame|].
    exists [assistantMessage captured clk]; split; [reflexivity|].
    repeat constructor.
Qed.

Lemma run_simulated_no_error (trace : list Event) :
  forall s,
    forallb simulated trace = true ->
    Forall (fun m => isError m = false) (messages s) ->
    Forall (fun m => isError m = false) (messages (run s trace)).
Proof.
  induction trace as [|e trace IH]; intros s Hsim Hs; [exact Hs|].
  simpl in Hsim; apply andb_true_iff in Hsim as [He Hsim].
  simpl; apply (IH (step s e) Hsim).
  destruct (step_simulated_suffix s e He) as [suffix [-> Hsuf]].
  apply Forall_app; split; assumption.
Qed.

Lemma replyTemplate_embeds :
  exists before after,
    forall t, replyTemplate t = before ++ t ++ after.
Proof.
  unfold replyTemplate.
  eexists (_ ++ QUOTE), _; intros t.
  rewrite <- app_assoc; reflexivity.
Qed.

(** C10.  The promise awaited in [handleSend] is settled by a timer that
    calls [resolve], so it is fulfilled.  In every state the component
    reaches with it, no message bears the error mark.  For a submission
    accepted in such a state, the user's events in between change nothing
    and the timer's expiry appends the reply, whose content is the fixed
    template around the submitted text. *)
Theorem simulated_call_always_replies
    (t0 : Z) (trace : list Event) (clk clk' : Clock) (mid : list Event)
    (o : Outcome)
    (Hsim : forallb simulated trace = true)
    (Hidle : isLoading (run (initial t0) trace) = false)
    (Htrim : JsString.trim (input (run (initial t0) trace)) <> [])
    (Hmid : forallb user_event mid = true)
    (Hsettle : simulated (Settle o clk') = true) :
  let s := run (initial t0) trace in
  simulatedCall = Some Fulfilled
  /\ Forall (fun m => isError m = false) (messages s)
  /\ (exists reply,
        run s (ClickSend clk :: mid ++ [Settle o clk'])
        = {| messages := messages s ++ [userMessage (render s) clk; reply];
             input := JsString.empty; isLoading := false; inflight := [] |}
        /\ role reply = assistant /\ isError reply = false
        /\ content reply = replyTemplate (input s))
  /\ (exists before after,
        forall t, replyTemplate t = before ++ t ++ after)
  /\ Forall (fun m => isError m = false)
       (messages (run s (ClickSend clk :: mid ++ [Settle o clk']))).
Proof.
  intros s.
  assert (Hs : Forall (fun m => isError m = false) (messages s)).
  { apply run_simulated_no_error; [exact Hsim|].
    repeat constructor. }
  split; [exact simulatedCall_fulfils|].
  split; [exact Hs|].
  split; [|split; [exact replyTemplate_embeds|]].
  - exists (assistantMessage (input s) clk').
    split; [|repeat split].
    apply simulated_Settle in Hsettle; subst o.
    assert (Hinflight : inflight s = []).
    { destruct (reachable_consistent t0 trace) as [[_ Hi] | [Hl _]];
        [exact Hi|].
      rewrite Hidle in Hl; discriminate Hl. }
    change (run s (ClickSend clk :: mid ++ [Settle Fulfilled clk']))
      with (run (step s (ClickSend clk)) (mid ++ [Settle Fulfilled clk'])).
    unfold step at 1.
    rewrite ClickSend_submit, (submit_accepts clk s Htrim Hidle); simpl.
    rewrite run_app,
      (awaiting_user_events_noop mid (accepted clk s) eq_refl Hmid).
    unfold accepted; rewrite Hinflight; simpl.
    unfold step, dispatch; simpl.
    rewrite <- app_assoc; reflexivity.
  - apply run_simulated_no_error; [|exact Hs].
    cbn [forallb]; rewrite forallb_app; cbn [forallb].
    rewrite Hsettle, (user_events_simulated mid Hmid); reflexivity.
Qed.

(** ** Message ids *)

(** C8 does not hold of the code.  The ids are readings of the wall
    clock: [Date.now()] for a user message and [Date.now() + 1] for a
    reply.  In the history [Scenario.clash] the reply is made at
    millisecond 7000 and gets the id of millisecond 7001, the very
    millisecond at which the next question is sent: the third and the
    fourth message of the log bear the same id. *)
Theorem message_ids_can_collide :
  let log := messages (run (initial Scenario.mounted_at) Scenario.clash) in
  forallb simulated Scenario.clash = true
  /\ List.length log = 4%nat
  /\ (exists reply question,
        nth_error log 2 = Some reply /\ nth_error log 3 = Some question
        /\ role reply = assistant /\ role question = user
        /\ id reply = JsString.lit "1700000007001"
        /\ id question = JsString.lit "1700000007001")
  /\ ~ NoDup (map id log).
Proof.
  split; [reflexivity|].
  split; [reflexivity|].
  split.
  - do 2 eexists.
    split; [reflexivity|].
    split; [reflexivity|].
    repeat split.
  - vm_compute; intros H.
    inversion H as [|? ? _ H1]; subst.
    inversion H1 as [|? ? _ H2]; subst.
    inversion H2 as [|? ? Hin _]; subst.
    apply Hin; left; reflexivity.
Qed.

(** ** The scenarios, run *)

Example scenario_submit :
  let s := Scenario.sent in
  List.length (messages s) = 2%nat
  /\ option_map role (nth_error (messages s) 1) = Some user
  /\ option_map content (nth_error (messages s) 1) = Some Scenario.question
  /\ isLoading s = true /\ input s = JsString.empty.
Proof. repeat split. Qed.

Example scenario_resolve :
  let s := step Scenario.sent (Settle Fulfilled (Scenario.at_ms 7000)) in
  List.length (messages s) = 3%nat
  /\ option_map role (nth_error (messages s) 2) = Some assistant
  /\ option_map isError (nth_error (messages s) 2) = Some false
  /\ isLoading s = false.
Proof. repeat split. Qed.

Example scenario_fail :
  let s := step Scenario.sent (Settle Rejected (Scenario.at_ms 7000)) in
  List.length (messages s) = 3%nat
  /\ option_map role (nth_error (messages s) 2) = Some assistant
  /\ option_map isError (nth_error (messages s) 2) = Some true
  /\ isLoading s = false.
Proof. repeat split. Qed.

Example scenario_sample :
  let s := step (initial Scenario.mounted_at) (ClickSample 1) in
  input s = JsString.lit "Explain inflation and interest rates relationship"
  /\ List.length (messages s) = 1%nat /\ isLoading s = false.
Proof. repeat split. Qed.

Example scenario_trim :
  JsString.trim (JsString.lit "  GDP? ") = JsString.lit "GDP?"
  /\ JsString.ofNumber 1700000007001 = JsString.lit "1700000007001"
  /\ JsString.ofNumber (-5) = JsString.lit "-5"
  /\ JsString.ofNumber 0 = JsString.lit "0".
Proof. repeat split. Qed.

Lemma submit_idle_appends_user_message_witness :
  input Scenario.typed = Scenario.question
  /\ JsString.trim Scenario.question <> []
  /\ isLoading Scenario.typed = false
  /\ exists m,
       messages (snd (submit (Scenario.at_ms 5000) Scenario.typed))
       = messages Scenario.typed ++ [m]
       /\ content m = Scenario.question.
Proof.
  assert (Htrim : JsString.trim Scenario.question <> [])
    by (vm_compute; discriminate).
  split; [reflexivity|].
  split; [exact Htrim|].
  split; [reflexivity|].
  destruct (submit_idle_appends_user_message Scenario.question
              (Scenario.at_ms 5000) Scenario.typed eq_refl Htrim eq_refl)
    as [m [H [_ [Hc _]]]].
  exists m; rewrite H; split; [reflexivity | exact Hc].
Defined.

Lemma submit_while_awaiting_is_noop_witness :
  isLoading Scenario.sent = true
  /\ submit (Scenario.at_ms 5400) Scenario.sent = (Normal tt, Scenario.sent).
Proof.
  split; [reflexivity|].
  exact (proj1 (submit_while_awaiting_is_noop (Scenario.at_ms 5400)
                  Scenario.sent eq_refl)).
Defined.

Lemma submit_blank_is_noop_witness :
  forallb JsString.isWhiteSpace (input Scenario.blank) = true
  /\ submit (Scenario.at_ms 5000) Scenario.blank
     = (Normal tt, Scenario.blank).
Proof.
  split; [reflexivity|].
  exact (proj1 (submit_blank_is_noop (Scenario.at_ms 5000)
                  Scenario.blank eq_refl)).
Defined.

Lemma resolve_appends_assistant_reply_witness :
  inflight Scenario.sent = [Scenario.question]
  /\ exists m,
       messages (step Scenario.sent (Settle Fulfilled (Scenario.at_ms 7000)))
       = messages Scenario.sent ++ [m]
       /\ isError m = false.
Proof.
  split; [reflexivity|].
  destruct (resolve_appends_assistant_reply Scenario.question []
              (Scenario.at_ms 7000) Scenario.sent eq_refl)
    as [m [H [_ [He _]]]].
  exists m; unfold step; rewrite H; split; [reflexivity | exact He].
Defined.

Lemma fail_appends_error_notice_witness :
  inflight Scenario.sent = [Scenario.question]
  /\ JsString.trim (JsString.lit "again") <> []
  /\ exists m,
       messages (step Scenario.sent (Settle Rejected (Scenario.at_ms 7000)))
       = messages Scenario.sent ++ [m]
       /\ isError m = true /\ content m = errorText.
Proof.
  assert (Htrim : JsString.trim (JsString.lit "again") <> [])
    by (vm_compute; discriminate).
  split; [reflexivity|].
  split; [exact Htrim|].
  destruct (fail_appends_error_notice Scenario.question []
              (Scenario.at_ms 7000) (Scenario.at_ms 9000)
              (JsString.lit "again") Scenario.sent eq_refl Htrim)
    as [m [s' [H [Hs' [_ [He [Hc _]]]]]]].
  exists m; unfold step; rewrite H, Hs'.
  split; [reflexivity | split; [exact He | exact Hc]].
Defined.

Lemma messages_append_only_witness :
  nth_error (messages (initial Scenario.mounted_at)) 0
  = nth_error (messages (run (initial Scenario.mounted_at) Scenario.clash)) 0.
Proof.
  destruct (messages_append_only (initial Scenario.mounted_at))
    as [_ [_ [_ [_ [_ [_ H]]]]]].
  symmetry; exact (H Scenario.clash 0%nat _ eq_refl).
Defined.

Lemma simulated_call_always_replies_witness :
  forallb simulated [Change Scenario.question] = true
  /\ isLoading Scenario.typed = false
  /\ JsString.trim (input Scenario.typed) <> []
  /\ forallb user_event [Change (JsString.lit "x"); ClickSample 0] = true
  /\ simulated (Settle Fulfilled (Scenario.at_ms 7000)) = true
  /\ Forall (fun m => isError m = false)
       (messages
          (run Scenario.typed
             (ClickSend (Scenario.at_ms 5000)
              :: [Change (JsString.lit "x"); ClickSample 0]
                 ++ [Settle Fulfilled (Scenario.at_ms 7000)]))).
Proof.
  assert (Htrim : JsString.trim (input Scenario.typed) <> [])
    by (vm_compute; discriminate).
  split; [reflexivity|].
  split; [reflexivity|].
  split; [exact Htrim|].
  split; [reflexivity|].
  split; [reflexivity|].
  exact (proj2 (proj2 (proj2 (proj2
           (simulated_call_always_replies Scenario.mounted_at
              [Change Scenario.question]
              (Scenario.at_ms 5000) (Scenario.at_ms 7000)
              [Change (JsString.lit "x"); ClickSample 0] Fulfilled
              eq_refl eq_refl Htrim eq_refl eq_refl))))).
Defined.

(** ** What one event can do *)

Lemma submit_cases (clk : Clock) (s : Session) :
  submit clk s = (Normal tt, s)
  \/ (JsString.trim (input s) <> [] /\ isLoading s = false
      /\ submit clk s = (Normal tt, accepted clk s)).
Proof.
  destruct (isLoading s) eqn:Hl.
  - left; apply submit_rejects; right; exact Hl.
  - destruct (JsString.trim (input s)) as [|c u] eqn:Ht.
    + left; apply submit_rejects; left; exact Ht.
    + right; split; [discriminate|]; split; [reflexivity|].
      apply submit_accepts; [rewrite Ht; discriminate | exact Hl].
Qed.

(** An event of the user leaves the state as it is, or puts a text in
    the text box of an idle session, or is an accepted submission. *)
Lemma user_event_cases (s : Session) (e : Event) :
  user_event e = true ->
  step s e = s
  \/ (isLoading s = false /\ exists v, step s e = with_input v s)
  \/ (exists clk,
        JsString.trim (input s) <> [] /\ isLoading s = false
        /\ step s e = accepted clk s).
Proof.
  intros He.
  assert (Hsubmit : forall clk,
             snd (submit clk s) = s
             \/ (isLoading s = false
                 /\ exists v, snd (submit clk s) = with_input v s)
             \/ (exists clk',
                   JsString.trim (input s) <> [] /\ isLoading s = false
                   /\ snd (submit clk s) = accepted clk' s)).
  { intros clk.
    destruct (submit_cases clk s) as [-> | [Ht [Hl ->]]];
      [left; reflexivity|].
    right; right; exists clk; repeat split; assumption. }
  destruct (isLoading s) eqn:Hl.
  - left; unfold step.
    rewrite (awaiting_user_event_noop s e Hl He); reflexivity.
  - destruct e as [value | k shiftKey clk | clk | index | o clk];
      try discriminate He; unfold step.
    + right; left; split; [reflexivity|]; exists value.
      unfold dispatch, textarea_disabled; simpl; rewrite Hl; reflexivity.
    + unfold dispatch, textarea_disabled; simpl; rewrite Hl.
      unfold handleKeyPress.
      destruct (_ && _)%bool; [|left; reflexivity].
      apply (Hsubmit clk).
    + rewrite ClickSend_submit; apply (Hsubmit clk).
    + unfold dispatch, sampleButton_disabled; simpl; rewrite Hl.
      destruct (nth_error sampleQuestions index) as [question|];
        [|left; reflexivity].
      right; left; split; [reflexivity|]; exists question; reflexivity.
Qed.

(** The settling of a promise does nothing when no call is suspended;
    otherwise it resumes the oldest one. *)
Lemma settle_cases (s : Session) (o : Outcome) (clk : Clock) :
  (inflight s = [] /\ step s (Settle o clk) = s)
  \/ (exists captured rest,
        inflight s = captured :: rest
        /\ step s (Settle o clk) =
           {| messages :=
                messages s
                ++ [match o with
                    | Fulfilled => assistantMessage captured clk
                    | Rejected => errorMessage clk
                    end];
              input := input s; isLoading := false; inflight := rest |}).
Proof.
  unfold step, dispatch.
  destruct (inflight s) as [|captured rest] eqn:Hi.
  - left; split; reflexivity.
  - right; exists captured, rest; split; [reflexivity|].
    destruct o; reflexivity.
Qed.

(** ** The shape of the log *)

Lemma flatten_app (xs ys : list (Message * Message)) :
  flatten (xs ++ ys) = flatten xs ++ flatten ys.
Proof. apply flat_map_app. Qed.

Lemma initial_log_shape (sim : bool) (t0 : Z) : log_shape sim (initial t0).
Proof.
  eexists _, [], []; simpl.
  split; [reflexivity|].
  repeat split; [constructor|].
  left; repeat split.
Qed.

Lemma step_log_shape (sim : bool) (s : Session) (e : Event) :
  (sim = true -> simulated e = true) ->
  log_shape sim s -> log_shape sim (step s e).
Proof.
  intros Hsim (seed & xs & pend & Hm & Hr & Hc & He & Hxs & Hst).
  destruct (user_event e) eqn:Hu.
  - destruct (user_event_cases s e Hu)
      as [-> | [[Hl [v ->]] | [clk [Ht [Hl ->]]]]].
    + exists seed, xs, pend; repeat split; assumption.
    + exists seed, xs, pend; simpl.
      repeat split; try assumption.
      destruct Hst as [Hidle | [Hl' _]]; [left; exact Hidle|].
      rewrite Hl in Hl'; discriminate Hl'.
    + destruct Hst as [[_ [Hi ->]] | [Hl' _]];
        [|rewrite Hl in Hl'; discriminate Hl'].
      exists seed, xs, [userMessage (render s) clk]; simpl.
      rewrite Hm, app_nil_r, Hi.
      repeat split; try assumption.
      right; repeat split.
      exists (userMessage (render s) clk); repeat split; assumption.
  - destruct e as [value | k shiftKey clk | clk | index | o clk];
      try discriminate Hu.
    destruct (settle_cases s o clk)
      as [[_ ->] | [captured [rest [Hi ->]]]].
    + exists seed, xs, pend; repeat split; assumption.
    + destruct Hst as [[_ [Hi' _]] | [_ [_ [q [-> [Hq Hi']]]]]];
        [rewrite Hi in Hi'; discriminate Hi'|].
      rewrite Hi in Hi'; injection Hi' as -> ->.
      set (r := match o with
                | Fulfilled => assistantMessage (content q) clk
                | Rejected => errorMessage clk
                end).
      exists seed, (xs ++ [(q, r)]), []; simpl.
      split.
      { rewrite Hm, flatten_app, app_nil_r; simpl.
        rewrite <- app_assoc; reflexivity. }
      repeat split; try assumption.
      * apply Forall_app; split; [exact Hxs|].
        constructor; [|constructor].
        split; [exact Hq|]; simpl.
        split; [destruct o; reflexivity|].
        destruct o; [left; split; reflexivity|].
        right; repeat split.
        destruct sim; [|reflexivity].
        specialize (Hsim eq_refl); discriminate Hsim.
      * left; repeat split.
Qed.

Lemma run_log_shape (trace : list Event) :
  forall (sim : bool) (s : Session),
    (sim = true -> forallb simulated trace = true) ->
    log_shape sim s -> log_shape sim (run s trace).
Proof.
  induction trace as [|e trace IH]; intros sim s Hsim Hs; [exact Hs|].
  simpl; apply IH.
  - intros H; specialize (Hsim H); simpl in Hsim.
    apply andb_true_iff in Hsim; apply Hsim.
  - apply step_log_shape; [|exact Hs].
    intros H; specialize (Hsim H); simpl in Hsim.
    apply andb_true_iff in Hsim; apply Hsim.
Qed.

Lemma reachable_log_shape (t0 : Z) (trace : list Event) :
  log_shape (forallb simulated trace) (run (initial t0) trace).
Proof.
  apply run_log_shape; [intros H; exact H | apply initial_log_shape].
Qed.

(** X1.  After any history of events, with promises fulfilled or
    rejected, at most one call of [handleSend] is suspended and
    [isLoading] tells whether one is.  While one is, the text box is
    empty and the last message of the log is the user's question, whose
    content is the [input] the suspended call holds in its closure. *)
Theorem one_call_outstanding_at_most (t0 : Z) (trace : list Event) :
  let s := run (initial t0) trace in
  (isLoading s = false /\ inflight s = [])
  \/ (isLoading s = true /\ input s = JsString.empty
      /\ exists older q,
           messages s = older ++ [q] /\ role q = user
           /\ inflight s = [content q]).
Proof.
  intros s.
  destruct (reachable_log_shape t0 trace)
    as (seed & xs & pend & Hm & _ & _ & _ & _ & Hst).
  fold s in Hm, Hst.
  destruct Hst as [[Hl [Hi _]] | [Hl [Hin [q [-> [[Hq _] Hi]]]]]].
  - left; split; assumption.
  - right; repeat split; try assumption.
    exists (seed :: flatten xs), q; repeat split; assumption.
Qed.

Lemma flatten_roles (sim : bool) (xs : list (Message * Message)) :
  Forall (exchange_ok sim) xs ->
  forall k, Nat.even k = false ->
    map role (flatten xs)
    = map (fun i => if Nat.even i then assistant else user)
        (seq k (2 * List.length xs)).
Proof.
  induction 1 as [|x xs Hx _ IH]; intros k Hk; [reflexivity|].
  replace (2 * List.length (x :: xs))%nat
    with (S (S (2 * List.length xs))) by (simpl; lia).
  cbn [seq map flatten flat_map app].
  destruct Hx as [[Hq _] [Hr _]].
  rewrite Hq, Hr, Hk, Nat.even_succ; unfold Nat.odd; rewrite Hk; simpl.
  do 2 f_equal.
  apply (IH (S (S k))); exact Hk.
Qed.

(** X2.  After any history the roles in the log alternate, starting with
    the assistant's greeting: the messages at even positions are the
    assistant's, those at odd positions the user's.  A call is
    outstanding exactly when the number of messages is even. *)
Theorem roles_alternate (t0 : Z) (trace : list Event) :
  let s := run (initial t0) trace in
  map role (messages s) = alternating (List.length (messages s))
  /\ isLoading s = Nat.even (List.length (messages s)).
Proof.
  intros s.
  destruct (reachable_log_shape t0 trace)
    as (seed & xs & pend & Hm & Hr & _ & _ & Hxs & Hst).
  fold s in Hm, Hst.
  assert (Hodd : Nat.even (S (2 * List.length xs)) = false).
  { rewrite Nat.even_succ, <- Nat.negb_even, Nat.even_mul; reflexivity. }
  rewrite Hm; unfold alternating.
  cbn [List.length seq map]; rewrite Hr, length_app, seq_app, !map_app.
  rewrite (flatten_roles _ xs Hxs 1%nat eq_refl).
  assert (Hlen : List.length (flatten xs) = (2 * List.length xs)%nat).
  { clear; induction xs as [|x xs IH]; [reflexivity|].
    cbn [flatten flat_map app List.length] in *.
    unfold flatten in IH; rewrite IH; lia. }
  rewrite Hlen.
  destruct Hst as [[Hl [_ ->]] | [Hl [_ [q [-> [[Hq _] _]]]]]].
  - split; [reflexivity|].
    rewrite Hl, Nat.add_0_r; symmetry; exact Hodd.
  - cbn [List.length seq map]; rewrite Hq.
    change (1 + 2 * List.length xs)%nat with (S (2 * List.length xs)).
    rewrite Hodd; split; [reflexivity|].
    rewrite Hl, Nat.add_1_r; symmetry.
    change (Nat.even (2 * List.length xs) = true).
    rewrite Nat.even_mul; reflexivity.
Qed.

Lemma nth_flatten (xs : list (Message * Message)) (pend : list Message) :
  (List.length pend <= 1)%nat ->
  forall i q r,
    nth_error (flatten xs ++ pend) (2 * i) = Some q ->
    nth_error (flatten xs ++ pend) (S (2 * i)) = Some r ->
    In (q, r) xs.
Proof.
  intros Hp; induction xs as [|[a b] xs IH]; intros i q r Hq Hr.
  - cbn [flatten flat_map app] in Hr.
    assert (nth_error pend (S (2 * i)) = None)
      by (apply nth_error_None; lia).
    congruence.
  - destruct i as [|i].
    + simpl in Hq, Hr; injection Hq as ->; injection Hr as ->.
      left; reflexivity.
    + replace (2 * S i)%nat with (S (S (2 * i))) in Hq, Hr by lia.
      right; apply (IH i); assumption.
Qed.

(** X3.  After any history, the message that follows a user message in
    the log answers that very message: its content is the reply template
    around the content of the user message, whatever the text box held
    when the promise settled, or else it is the error notice.  The error
    notice takes a rejected promise, which the simulated call never
    gives. *)
Theorem reply_answers_preceding_question
    (t0 : Z) (trace : list Event) (i : nat) (q r : Message)
    (Hq : nth_error (messages (run (initial t0) trace)) (2 * i + 1) = Some q)
    (Hr : nth_error (messages (run (initial t0) trace)) (2 * i + 2) = Some r) :
  role q = user /\ role r = assistant
  /\ ((content r = replyTemplate (content q) /\ isError r = false)
      \/ (content r = errorText /\ isError r = true
          /\ forallb simulated trace = false)).
Proof.
  destruct (reachable_log_shape t0 trace)
    as (seed & xs & pend & Hm & _ & _ & _ & Hxs & Hst).
  rewrite Hm in Hq, Hr.
  replace (2 * i + 1)%nat with (S (2 * i)) in Hq by lia.
  replace (2 * i + 2)%nat with (S (S (2 * i))) in Hr by lia.
  cbn [nth_error] in Hq, Hr.
  assert (Hp : (List.length pend <= 1)%nat).
  { destruct Hst as [[_ [_ ->]] | [_ [_ [p [-> _]]]]]; simpl; lia. }
  pose proof (nth_flatten xs pend Hp i q r Hq Hr) as Hin.
  rewrite Forall_forall in Hxs.
  destruct (Hxs _ Hin) as [[Hrq _] [Hrr Hc]]; simpl in *.
  split; [exact Hrq|]; split; [exact Hrr|].
  unfold isError.
  destruct Hc as [[Hc He] | [Hs [Hc He]]]; rewrite He;
    [left | right]; repeat split; assumption.
Qed.

(** X4.  No blank question enters the log: after any history every user
    message has a content whose [trim()] is not empty. *)
Theorem log_has_no_blank_question (t0 : Z) (trace : list Event) :
  forallb asks_something (messages (run (initial t0) trace)) = true.
Proof.
  destruct (reachable_log_shape t0 trace)
    as (seed & xs & pend & Hm & Hr & _ & _ & Hxs & Hst).
  assert (Hask : forall q, question_ok q -> asks_something q = true).
  { intros q [Hq [Ht _]]; unfold asks_something; rewrite Hq.
    apply JsStringFacts.truthy_trim_true; exact Ht. }
  rewrite Hm; cbn [forallb].
  unfold asks_something at 1; rewrite Hr; cbn [andb].
  rewrite forallb_app; apply andb_true_iff; split.
  - clear - Hxs Hask.
    induction Hxs as [|x xs [Hq [Hr _]] _ IH]; [reflexivity|].
    cbn [flatten flat_map app forallb].
    rewrite (Hask _ Hq); unfold asks_something at 1; rewrite Hr.
    exact IH.
  - destruct Hst as [[_ [_ ->]] | [_ [_ [q [-> [Hq _]]]]]]; [reflexivity|].
    cbn [forallb]; rewrite (Hask _ Hq); reflexivity.
Qed.

(** ** Ids and clock readings *)

Lemma lit_inj (a b : string) : JsString.lit a = JsString.lit b -> a = b.
Proof.
  unfold JsString.lit; intros H.
  apply (f_equal (map ascii_of_N)) in H.
  rewrite !map_map in H.
  rewrite !(map_ext _ (fun x => x) ascii_N_embedding), !map_id in H.
  apply (f_equal string_of_list_ascii) in H.
  rewrite !string_of_list_ascii_of_string in H; exact H.
Qed.

Lemma to_int_not_nil (z : Z) :
  Z.to_int z <> Decimal.Pos Decimal.Nil
  /\ Z.to_int z <> Decimal.Neg Decimal.Nil.
Proof.
  split; intros E; pose proof (DecimalZ.of_to z) as H;
    rewrite E in H; simpl in H; subst z; discriminate E.
Qed.

(** Two numbers with the same decimal string are the same number. *)
Lemma ofNumber_inj (a b : Z) :
  JsString.ofNumber a = JsString.ofNumber b -> a = b.
Proof.
  unfold JsString.ofNumber; intros H.
  apply lit_inj in H.
  apply (f_equal NilZero.int_of_string) in H.
  destruct (to_int_not_nil a) as [Ha1 Ha2], (to_int_not_nil b) as [Hb1 Hb2].
  rewrite !NilZero.isi in H by assumption.
  injection H as H; apply DecimalZ.to_int_inj; exact H.
Qed.






(** X6.  Which readings make ids meet: a user message and a reply have
    the same id exactly when the user's reading of [Date.now()] is the
    reply's plus one; two user messages, or two replies, exactly when
    their readings are equal; and a user message has the id of the
    greeting exactly when its reading is 1. *)
Theorem ids_meet_iff (cl cl' : Closure) (captured captured' : jsstring)
    (clk clk' : Clock) :
  (id (userMessage cl clk) = id (assistantMessage captured clk')
   <-> dateNow clk = dateNow clk' + 1)
  /\ (id (userMessage cl clk) = id (errorMessage clk')
      <-> dateNow clk = dateNow clk' + 1)
  /\ (id (userMessage cl clk) = id (userMessage cl' clk')
      <-> dateNow clk = dateNow clk')
  /\ (id (assistantMessage captured clk) = id (assistantMessage captured' clk')
      <-> dateNow clk = dateNow clk')
  /\ (forall t0,
        In (id (userMessage cl clk)) (map id (messages (initial t0)))
        <-> dateNow clk = 1).
Proof.
  simpl; repeat split;
    try (intros H; apply ofNumber_inj in H; lia);
    try (intros H; f_equal; lia).
  - intros [H | []].
    change (JsString.lit "1") with (JsString.ofNumber 1) in H.
    apply ofNumber_inj in H; symmetry; exact H.
  - intros ->; left; reflexivity.
Qed.

(** ** Keys, buttons and sample questions *)

(** X7.  [handleKeyPress] sends on Enter without Shift only: Enter with
    Shift held, and every other key, leave the whole state as it is. *)
Theorem keypress_other_than_enter_is_ignored
    (k : jsstring) (shiftKey : bool) (clk : Clock) (s : Session)
    (Hkey : k <> JsString.lit "Enter" \/ shiftKey = true) :
  dispatch (KeyPress k shiftKey clk) s = (Normal tt, s)
  /\ handleKeyPress (render s) k shiftKey clk s = (Normal tt, s).
Proof.
  assert (H : (JsString.eqb k (JsString.lit "Enter") && negb shiftKey)%bool
              = false).
  { destruct Hkey as [Hk | ->]; [|apply andb_false_r].
    destruct (JsString.eqb k (JsString.lit "Enter")) eqn:E; [|reflexivity].
    apply JsStringFacts.eqb_eq in E; contradiction. }
  unfold dispatch, handleKeyPress; rewrite H.
  destruct (textarea_disabled _); split; reflexivity.
Qed.

(** X8.  In every state, Enter without Shift in the text box does what a
    click on the send button does. *)
Theorem enter_is_click_on_send (clk : Clock) (s : Session) :
  dispatch (KeyPress (JsString.lit "Enter") false clk) s
  = dispatch (ClickSend clk) s.
Proof. rewrite Enter_submit, ClickSend_submit; reflexivity. Qed.

(** X9.  The send button is disabled exactly in the states where
    [handleSend] would return without doing anything: it is enabled if
    and only if a submission changes the state. *)
Theorem send_button_disabled_iff_submit_is_noop (clk : Clock) (s : Session) :
  sendDisabled (view s) = true <-> snd (submit clk s) = s.
Proof.
  unfold view, sendButton_disabled; simpl.
  destruct (submit_cases clk s) as [H | [Ht [Hl H]]]; rewrite H; simpl.
  - split; [reflexivity | intros _].
    revert H; unfold submit, handleSend; simpl.
    destruct (negb _ || isLoading s)%bool; [reflexivity|].
    simpl; intros H; injection H as H.
    apply (f_equal (fun x => List.length (messages x))) in H.
    simpl in H; rewrite length_app in H; simpl in H; lia.
  - apply JsStringFacts.truthy_trim_true in Ht; rewrite Ht, Hl; simpl.
    split; [discriminate|].
    intros E; apply (f_equal isLoading) in E; simpl in E; congruence.
Qed.

(** X10.  An event appends at most one message.  What an event of the
    user appends is a user message, and it leaves [isLoading] true; what
    the settling of a promise appends is an assistant message, and it
    leaves [isLoading] false. *)
Theorem event_appends_at_most_one (s : Session) (e : Event) :
  messages (step s e) = messages s
  \/ exists m,
       messages (step s e) = messages s ++ [m]
       /\ role m = (if user_event e then user else assistant)
       /\ isLoading (step s e) = user_event e.
Proof.
  destruct (user_event e) eqn:Hu.
  - destruct (user_event_cases s e Hu)
      as [-> | [[_ [v ->]] | [clk [_ [_ ->]]]]];
      [left; reflexivity | left; reflexivity |].
    right; exists (userMessage (render s) clk); repeat split.
  - destruct e as [value | k shiftKey clk | clk | index | o clk];
      try discriminate Hu.
    destruct (settle_cases s o clk) as [[_ ->] | [captured [rest [_ ->]]]];
      [left; reflexivity|].
    right; eexists; split; [reflexivity|].
    destruct o; split; reflexivity.
Qed.

(** X11.  Each of the three sample questions can be sent as it is: in a
    session that is not loading, a click on a sample button followed by
    a click on the send button appends a user message whose content is
    the text of the button. *)
Theorem sample_question_then_send
    (index : nat) (clk : Clock) (s : Session)
    (Hidle : isLoading s = false)
    (Hindex : (index < List.length sampleQuestions)%nat) :
  exists question m,
    nth_error sampleQuestions index = Some question
    /\ run s [ClickSample index; ClickSend clk]
       = {| messages := messages s ++ [m]; input := JsString.empty;
            isLoading := true; inflight := inflight s ++ [question] |}
    /\ role m = user /\ content m = question.
Proof.
  assert (Hq : exists question,
             nth_error sampleQuestions index = Some question
             /\ JsString.trim question <> []).
  { destruct index as [|[|[|index]]];
      [| | |simpl in Hindex; lia];
      eexists; (split; [reflexivity | vm_compute; discriminate]). }
  destruct Hq as [question [Hn Ht]].
  exists question,
    (userMessage {| cl_input := question; cl_isLoading := false |} clk).
  split; [exact Hn|].
  split; [|split; reflexivity].
  assert (H1 : step s (ClickSample index) = with_input question s).
  { unfold step, dispatch, sampleButton_disabled; simpl.
    rewrite Hidle, Hn; reflexivity. }
  unfold run; simpl; rewrite H1.
  unfold step; rewrite ClickSend_submit, submit_accepts;
    [|exact Ht | exact Hidle].
  unfold accepted, render; simpl; rewrite Hidle; reflexivity.
Qed.

(** ** What is shown *)

(** X12.  After any history the rows show the log in its order, and the
    loading indicator is shown exactly when the last row is a user
    message; while it is shown the text box is empty and the text box,
    the send button and the sample buttons are all disabled. *)
Theorem loading_row_follows_user_message (t0 : Z) (trace : list Event) :
  let s := run (initial t0) trace in
  let v := view s in
  map text (rows v) = map content (messages s)
  /\ map key (rows v) = map id (messages s)
  /\ (exists older m,
        rows v = map messageView older ++ [messageView m]
        /\ messages s = older ++ [m]
        /\ loadingRow v = isUser m)
  /\ textareaDisabled v = loadingRow v
  /\ samplesDisabled v = loadingRow v
  /\ (loadingRow v = false
      \/ (textareaValue v = JsString.empty /\ sendDisabled v = true)).
Proof.
  intros s v.
  destruct (reachable_log_shape t0 trace)
    as (seed & xs & pend & Hm & Hr & _ & _ & Hxs & Hst).
  fold s in Hm, Hst.
  split; [unfold v, view; simpl; rewrite map_map; reflexivity|].
  split; [unfold v, view; simpl; rewrite map_map; reflexivity|].
  split; [|split; [reflexivity|split; [reflexivity|]]].
  - assert (Hlast : exists older m,
               messages s = older ++ [m] /\ isLoading s = isUser m).
    { destruct Hst as [[Hl [_ ->]] | [Hl [_ [q [-> [[Hq _] _]]]]]].
      - rewrite app_nil_r in Hm.
        destruct xs as [|x0 xs0] eqn:Exs.
        + exists [], seed; split; [exact Hm|].
          unfold isUser; rewrite Hr; exact Hl.
        + destruct (@exists_last _ (x0 :: xs0)) as [xs' [x Hx]];
            [discriminate|].
          rewrite Hx in Hm, Hxs.
          apply Forall_app in Hxs as [_ Hx'].
          inversion Hx' as [|? ? [_ [Hrx _]] _]; subst.
          exists (seed :: flatten xs' ++ [fst x]), (snd x); split.
          * rewrite Hm, flatten_app; simpl.
            rewrite <- app_assoc; reflexivity.
          * unfold isUser; rewrite Hrx; exact Hl.
      - exists (seed :: flatten xs), q; split; [exact Hm|].
        unfold isUser; rewrite Hq; exact Hl. }
    destruct Hlast as [older [m [Hlog Hl]]].
    exists older, m; unfold v, view; simpl.
    rewrite Hlog, map_app; repeat split; exact Hl.
  - unfold v, view, sendButton_disabled; simpl.
    destruct Hst as [[Hl _] | [Hl [Hin _]]]; [left; exact Hl|].
    right; split; [exact Hin|].
    rewrite Hl; apply orb_true_r.
Qed.

(** X13.  A row has the red card, and the alert icon, exactly when its
    message is the assistant's and carries a true [error]; a user
    message is never shown as an error, whatever its [error] field, and
    has its avatar on the right instead of the left. *)
Theorem error_style_iff_assistant_error (m : Message) :
  (cardClass (messageView m) = errorCardClass
   <-> role m = assistant /\ isError m = true)
  /\ (option_map icon (assistantAvatar (messageView m)) = Some AlertCircle
      <-> role m = assistant /\ isError m = true)
  /\ (option_map icon (assistantAvatar (messageView m)) = Some Bot
      <-> role m = assistant /\ isError m = false)
  /\ (assistantAvatar (messageView m) = None <-> role m = user)
  /\ (option_map icon (userAvatar (messageView m)) = Some User
      <-> role m = user).
Proof.
  destruct m as [i c r t e]; unfold messageView, isUser, isAssistant,
    isError, errorCardClass; simpl.
  destruct r, e as [[|]|]; simpl;
    repeat split; try discriminate; try reflexivity;
    try (intros [H1 H2]; discriminate); intros H; discriminate H.
Qed.

(** X14.  With the simulated call no row is ever shown as an error:
    after any history in which the promises settle as the timer settles
    them, no row has the red card or the alert icon. *)
Theorem simulated_call_shows_no_error_row
    (t0 : Z) (trace : list Event)
    (Hsim : forallb simulated trace = true) :
  Forall (fun r =>
            cardClass r <> errorCardClass
            /\ option_map icon (assistantAvatar r) <> Some AlertCircle)
    (rows (view (run (initial t0) trace))).
Proof.
  unfold view; simpl; apply Forall_map.
  assert (H : Forall (fun m => isError m = false)
                (messages (run (initial t0) trace))).
  { apply run_simulated_no_error; [exact Hsim | repeat constructor]. }
  eapply Forall_impl; [|exact H]; simpl.
  intros [i c r t e]; unfold messageView, isUser, isAssistant, isError,
    errorCardClass; simpl.
  intros ->; destruct r; simpl; split; discriminate.
Qed.

(** ** The session never gets stuck *)

Lemma edit_then_send (t : jsstring) (clk : Clock) (s : Session) :
  isLoading s = false -> JsString.trim t <> [] ->
  run s [Change t; ClickSend clk] = accepted clk (with_input t s).
Proof.
  intros Hl Ht.
  assert (H1 : step s (Change t) = with_input t s).
  { unfold step, dispatch, textarea_disabled; simpl.
    rewrite Hl; reflexivity. }
  unfold run; simpl; rewrite H1.
  unfold step; rewrite ClickSend_submit, submit_accepts;
    [reflexivity | exact Ht | exact Hl].
Qed.

(** X15.  After any history the session can take the next question:
    once the outstanding promise, if there is one, has settled either
    way, typing a text [t] with [t.trim()] not empty and clicking send
    appends the user message of content [t] and suspends a call for it.
    A settlement that finds no call outstanding changes nothing. *)
Theorem session_takes_next_question
    (t0 : Z) (trace : list Event) (o : Outcome) (clk clk' : Clock)
    (t : jsstring)
    (Htrim : JsString.trim t <> []) :
  let s := run (initial t0) trace in
  let s' := run s [Settle o clk; Change t; ClickSend clk'] in
  exists older m,
    messages s' = older ++ [m]
    /\ role m = user /\ content m = t
    /\ isLoading s' = true /\ inflight s' = [t]
    /\ ((isLoading s = false /\ older = messages s)
        \/ (isLoading s = true /\ exists r,
              older = messages s ++ [r] /\ role r = assistant)).
Proof.
  intros s s'.
  assert (Hsettled : exists s1,
             step s (Settle o clk) = s1 /\ isLoading s1 = false
             /\ inflight s1 = []
             /\ ((isLoading s = false /\ messages s1 = messages s)
                 \/ (isLoading s = true /\ exists r,
                       messages s1 = messages s ++ [r]
                       /\ role r = assistant))).
  { destruct (reachable_consistent t0 trace) as [[Hl Hi] | [Hl [c Hi]]];
      fold s in Hl, Hi;
      destruct (settle_cases s o clk) as [[Hi' ->] | [c' [rest [Hi' ->]]]];
      try congruence.
    - exists s; repeat split; try assumption.
      left; split; [exact Hl | reflexivity].
    - rewrite Hi in Hi'; injection Hi' as <- <-.
      eexists; split; [reflexivity|]; simpl; repeat split.
      right; split; [exact Hl|].
      eexists; split; [reflexivity|]; destruct o; reflexivity. }
  destruct Hsettled as [s1 [H1 [Hl1 [Hi1 Hm1]]]].
  assert (Hs' : s' = accepted clk' (with_input t s1)).
  { unfold s'.
    change (run s [Settle o clk; Change t; ClickSend clk'])
      with (run (step s (Settle o clk)) [Change t; ClickSend clk']).
    rewrite H1; apply edit_then_send; assumption. }
  exists (messages s1), (userMessage (render (with_input t s1)) clk').
  rewrite Hs'; simpl; rewrite Hi1.
  repeat split.
  destruct Hm1 as [[Hl Hm] | [Hl [r [Hm Hr]]]]; [left | right];
    (split; [exact Hl|]).
  - exact Hm.
  - exists r; split; assumption.
Qed.

(** ** Instances *)

Lemma reply_answers_preceding_question_witness :
  exists q r,
    nth_error
      (messages
         (run (initial Scenario.mounted_at)
            [Change Scenario.question; ClickSend (Scenario.at_ms 5000);
             Settle Fulfilled (Scenario.at_ms 7000)])) (2 * 0 + 1) = Some q
    /\ nth_error
         (messages
            (run (initial Scenario.mounted_at)
               [Change Scenario.question; ClickSend (Scenario.at_ms 5000);
                Settle Fulfilled (Scenario.at_ms 7000)])) (2 * 0 + 2)
       = Some r
    /\ content q = Scenario.question
    /\ role q = user /\ role r = assistant.
Proof.
  do 2 eexists.
  split; [reflexivity|].
  split; [reflexivity|].
  split; [reflexivity|].
  pose proof (reply_answers_preceding_question Scenario.mounted_at
                [Change Scenario.question; ClickSend (Scenario.at_ms 5000);
                 Settle Fulfilled (Scenario.at_ms 7000)]
                0%nat _ _ eq_refl eq_refl) as H.
  split; [exact (proj1 H) | exact (proj1 (proj2 H))].
Defined.


Lemma keypress_other_than_enter_is_ignored_witness :
  (JsString.lit "Enter" <> JsString.lit "Enter" \/ true = true)
  /\ dispatch (KeyPress (JsString.lit "Enter") true (Scenario.at_ms 5000))
       Scenario.typed
     = (Normal tt, Scenario.typed).
Proof.
  split; [right; reflexivity|].
  exact (proj1 (keypress_other_than_enter_is_ignored
                  (JsString.lit "Enter") true (Scenario.at_ms 5000)
                  Scenario.typed (or_intror eq_refl))).
Defined.

Lemma sample_question_then_send_witness :
  isLoading (initial Scenario.mounted_at) = false
  /\ (2 < List.length sampleQuestions)%nat
  /\ exists question m,
       nth_error sampleQuestions 2 = Some question
       /\ run (initial Scenario.mounted_at)
            [ClickSample 2; ClickSend (Scenario.at_ms 5000)]
          = {| messages := messages (initial Scenario.mounted_at) ++ [m];
               input := JsString.empty; isLoading := true;
               inflight :=
                 inflight (initial Scenario.mounted_at) ++ [question] |}
       /\ role m = user /\ content m = question.
Proof.
  split; [reflexivity|].
  split; [simpl; lia|].
  apply (sample_question_then_send 2 (Scenario.at_ms 5000)
           (initial Scenario.mounted_at) eq_refl).
  simpl; lia.
Defined.

Lemma simulated_call_shows_no_error_row_witness :
  forallb simulated Scenario.clash = true
  /\ Forall (fun r =>
               cardClass r <> errorCardClass
               /\ option_map icon (assistantAvatar r) <> Some AlertCircle)
       (rows (view (run (initial Scenario.mounted_at) Scenario.clash))).
Proof.
  split; [reflexivity|].
  exact (simulated_call_shows_no_error_row Scenario.mounted_at
           Scenario.clash eq_refl).
Defined.

Lemma session_takes_next_question_witness :
  JsString.trim (JsString.lit "And inflation?") <> []
  /\ exists older m,
       messages
         (run Scenario.sent
            [Settle Rejected (Scenario.at_ms 7000);
             Change (JsString.lit "And inflation?");
             ClickSend (Scenario.at_ms 9000)]) = older ++ [m]
       /\ content m = JsString.lit "And inflation?".
Proof.
  assert (Htrim : JsString.trim (JsString.lit "And inflation?") <> [])
    by (vm_compute; discriminate).
  split; [exact Htrim|].
  destruct (session_takes_next_question Scenario.mounted_at
              [Change Scenario.question; ClickSend (Scenario.at_ms 5000)]
              Rejected (Scenario.at_ms 7000) (Scenario.at_ms 9000)
              (JsString.lit "And inflation?") Htrim)
    as [older [m [Hm [_ [Hc _]]]]].
  exists older, m; split; [exact Hm | exact Hc].
Defined.
